(** * verification/verify_suggestions.py

    A shallow embedding of the Playwright smoke test and the properties of
    its control flow: exit codes, the catch-all handler, the two attribute
    assertions, the screenshot and the release of the browser.

    The script talks to three things it does not define: the Playwright
    driver and browser, the operating system (current directory, files)
    and the console.  They are gathered in a [World], an oracle that says
    how each call answers, [print] included; the script itself is a program
    in a small state-and-exception monad that logs every call it makes. *)

From stdpp Require Import base decidable option list strings gmap.
From Stdlib Require Import ZArith.

(** ** Python exceptions *)

(** An exception is an instance of some subclass of [Exception], known by
    the name of its class and by its text, or the [SystemExit] that
    [exit(code)] raises, which is a [BaseException] but not an
    [Exception]. *)
Inductive exn : Type :=
| Exception (cls msg : string)
| SystemExit (code : Z).

(** Playwright's own [Error] and the [AssertionError] of [expect]. *)
Definition Error (msg : string) : exn := Exception "Error" msg.
Definition AssertionError (msg : string) : exn := Exception "AssertionError" msg.

(** [isinstance(e, Exception)]. *)
Definition is_Exception (e : exn) : bool :=
  match e with
  | Exception _ _ => true
  | SystemExit _ => false
  end.

Definition digit (n : Z) : string :=
  String (Ascii.ascii_of_nat (48 + Z.to_nat n)) "".

(** [str(e)], what an f-string interpolates. [SystemExit] only ever carries
    the code 1 here, one digit is all its rendering needs. *)
Definition str (e : exn) : string :=
  match e with
  | Exception _ msg => msg
  | SystemExit code => digit code
  end.

(** ** The page *)

(** [page.locator(selector)] and [page.get_by_role(role, name=name)]: a
    locator is only a description, nothing is looked up when it is built. *)
Inductive Locator : Type :=
| locator (selector : string)
| get_by_role (role name : string).

(** An element, as far as the script looks at it: its attributes. *)
Definition attributes : Type := gmap string string.

(** A loaded document answers a locator with the element it designates,
    if there is one. *)
Definition Document : Type := Locator → option attributes.

(** The page a new tab shows before any navigation. *)
Definition about_blank : Document := λ _, None.

(** ** The world around the script *)

(** How a call answers: it returns, or it raises an instance of the class
    [cls], a subclass of [Exception], with the text [msg]. *)
Inductive Answer : Type :=
| Returns
| Raises (cls msg : string).

Inductive Navigation : Type :=
| Loaded (doc : Document)
| NavigationFailed (cls msg : string).

Record World : Type := {
  (** [os.path.abspath], which joins the current directory and the path *)
  abspath : string → string;
  (** [sync_playwright().__enter__()] *)
  playwright_start : Answer;
  (** [p.chromium.launch(headless=...)] *)
  chromium_launch : bool → Answer;
  (** [browser.new_page()] *)
  browser_new_page : Answer;
  (** [page.goto(url)] *)
  page_goto : string → Navigation;
  (** the text of the [AssertionError] of a failed [to_have_attribute] on
      the page shown: it reports what was found there *)
  expect_message : Document → Locator → string → string → string;
  (** [page.screenshot(path=...)] *)
  page_screenshot : string → Answer;
  (** [browser.close()] *)
  browser_close : Answer;
  (** [sync_playwright().__exit__(...)] *)
  playwright_stop : Answer;
  (** [print(line)]: writing to the console can fail too, on a pipe that
      was closed or a terminal that cannot encode the line.  A run prints
      no line twice, so one answer per line describes any console. *)
  console_print : string → Answer;
}.

(** ** What a run leaves behind *)

Inductive Call : Type :=
| SyncPlaywright
| Launch (headless : bool)
| NewPage
| Goto (url : string)
| ToHaveAttribute (loc : Locator) (name value : string)
| Screenshot (path : string)
| Close
| StopPlaywright
| Print (line : string).

Inductive Outcome : Type :=
| Returned
| Raised (e : exn).

Definition Event : Type := Call * Outcome.

Global Instance exn_eq_dec : EqDecision exn.
Proof. solve_decision. Defined.
Global Instance Locator_eq_dec : EqDecision Locator.
Proof. solve_decision. Defined.
Global Instance Call_eq_dec : EqDecision Call.
Proof. solve_decision. Defined.
Global Instance Outcome_eq_dec : EqDecision Outcome.
Proof. solve_decision. Defined.
Global Instance Answer_eq_dec : EqDecision Answer.
Proof. solve_decision. Defined.

(** The interpreter state: the log of calls so far (oldest first) and the
    document the page shows. *)
Record State : Type := mkState {
  log : list Event;
  dom : Document;
}.

Definition init : State := {| log := []; dom := about_blank |}.

(** ** A state and exception monad *)

Inductive Result (A : Type) : Type :=
| Ret (a : A)
| Raise (e : exn).
Arguments Ret {A} a.
Arguments Raise {A} e.

Definition M (A : Type) : Type := State → Result A * State.

Definition ret {A} (a : A) : M A := λ s, (Ret a, s).

Definition bind {A B} (m : M A) (k : A → M B) : M B :=
  λ s, match m s with
       | (Ret a, s') => k a s'
       | (Raise e, s') => (Raise e, s')
       end.

Definition raise {A} (e : exn) : M A := λ s, (Raise e, s).

(** Sequencing uses stdpp's monad notations: [x ← m; k] and [m;; k]. *)
Global Instance M_ret : MRet M := @ret.
Global Instance M_bind : MBind M := λ A B k m, bind m k.

(** [try: body except Exception as e: handler(e)]: only instances of
    [Exception] are caught, anything else goes through; what the handler
    raises goes through as well. *)
Definition try_except {A} (body : M A) (handler : exn → M A) : M A :=
  λ s, match body s with
       | (Raise e, s') => if is_Exception e then handler e s' else (Raise e, s')
       | r => r
       end.

(** [try: body finally: final]: [final] runs however [body] ends; when it
    raises, its exception replaces whatever was on its way. *)
Definition try_finally {A} (body : M A) (final : M unit) : M A :=
  λ s, match body s with
       | (r, s') =>
           match final s' with
           | (Ret _, s'') => (r, s'')
           | (Raise e, s'') => (Raise e, s'')
           end
       end.

(** [with enter as x: body x], for a context manager whose [__exit__]
    returns nothing, so that it swallows no exception.  A failing
    [__enter__] skips both the body and [__exit__]. *)
Definition with_ {R A} (enter : M R) (exit_ : M unit) (body : R → M A) : M A :=
  x ← enter; try_finally (body x) exit_.

(** One call into the world: logged with its outcome. *)
Definition record (c : Call) (o : Outcome) : M unit :=
  λ s, (Ret tt, {| log := log s ++ [(c, o)]; dom := dom s |}).

Definition call (c : Call) (answer : Answer) : M unit :=
  match answer with
  | Returns => record c Returned
  | Raises cls msg =>
      record c (Raised (Exception cls msg));; raise (Exception cls msg)
  end.

(** [exit(code)] *)
Definition exit {A} (code : Z) : M A := raise (SystemExit code).

Section Script.
Variable w : World.

Definition sync_playwright : M unit := call SyncPlaywright (playwright_start w).
Definition stop : M unit := call StopPlaywright (playwright_stop w).
Definition launch (headless : bool) : M unit :=
  call (Launch headless) (chromium_launch w headless).
Definition new_page : M unit := call NewPage (browser_new_page w).
Definition close : M unit := call Close (browser_close w).

(** [print(line)] *)
Definition print (line : string) : M unit :=
  call (Print line) (console_print w line).

(** [page.goto(url)]: on success the page shows the loaded document. *)
Definition goto (url : string) : M unit :=
  match page_goto w url with
  | Loaded doc =>
      λ s, (Ret tt, {| log := log s ++ [(Goto url, Returned)]; dom := doc |})
  | NavigationFailed cls msg => call (Goto url) (Raises cls msg)
  end.

(** [expect(loc).to_have_attribute(name, value)]: the element that [loc]
    designates in the current document carries the attribute [name] with
    exactly the value [value]; otherwise an [AssertionError]. *)
Definition has_attribute (doc : Document) (loc : Locator) (name value : string) : bool :=
  match doc loc with
  | Some el => bool_decide (el !! name = Some value)
  | None => false
  end.

Definition to_have_attribute (loc : Locator) (name value : string) : M unit :=
  λ s,
    if has_attribute (dom s) loc name value
    then record (ToHaveAttribute loc name value) Returned s
    else
      let e := AssertionError (expect_message w (dom s) loc name value) in
      (record (ToHaveAttribute loc name value) (Raised e);; raise e) s.

(** [page.screenshot(path=path)] *)
Definition screenshot (path : string) : M unit :=
  call (Screenshot path) (page_screenshot w path).

(** [def test_suggestions_panel(page)] *)
Definition test_suggestions_panel : M unit :=
  let file_path := abspath w "verification/index.html" in
   goto ("file://" +:+ file_path);;
   let solutions_container := locator "#solutionsContainer" in
   to_have_attribute solutions_container "aria-busy" "false";;
   print "✅ Verified aria-busy is false";;
   let link := get_by_role "link" "Inspect source code" in
   to_have_attribute link "aria-label" "Inspect source code (opens in a new window)";;
   print "✅ Verified aria-label on link";;
   screenshot "verification/verification.png";;
   print "✅ Screenshot captured".

(** [if __name__ == "__main__":] *)
Definition main : M unit :=
  with_ sync_playwright stop (λ _,
    launch true;;
    new_page;;
    try_finally
      (try_except test_suggestions_panel
         (λ e, print ("❌ Test failed: " +:+ str e);; exit 1))
      close).
End Script.

(** ** Observing a run *)

Record Run : Type := mkRun {
  events : list Event;
  ending : Result unit;
}.

Definition run (w : World) : Run :=
  let '(r, s) := main w init in {| events := log s; ending := r |}.

(** The exit status of the interpreter: 0 when the module body runs to its
    end, the code of an uncaught [SystemExit], and 1 for any other uncaught
    exception (after the traceback). *)
Definition exit_code (r : Result unit) : Z :=
  match r with
  | Ret _ => 0
  | Raise (SystemExit code) => code
  | Raise _ => 1
  end.

Definition raised (ev : Event) : bool :=
  match ev.2 with Raised _ => true | Returned => false end.

(** A line reaches the console when its [print] returns. *)
Definition printed (ev : Event) : option string :=
  match ev with (Print line, Returned) => Some line | _ => None end.

(** The lines on the console, in order. *)
Definition stdout (evs : list Event) : list string := omap printed evs.

Definition is_print (c : Call) : bool :=
  match c with Print _ => true | _ => false end.

(** The calls to Playwright, in order, with their outcomes. *)
Definition steps (evs : list Event) : list Event :=
  List.filter (λ ev, negb (is_print ev.1)) evs.

Definition written (ev : Event) : option string :=
  match ev with (Screenshot path, Returned) => Some path | _ => None end.

(** The files the run wrote: a screenshot call that returned has written
    its image. *)
Definition files_written (evs : list Event) : list string := omap written evs.

(** ** The script's constants *)

Definition fixture_url (w : World) : string :=
  "file://" +:+ abspath w "verification/index.html".

Definition busy_check : Call :=
  ToHaveAttribute (locator "#solutionsContainer") "aria-busy" "false".

Definition label_check : Call :=
  ToHaveAttribute (get_by_role "link" "Inspect source code")
    "aria-label" "Inspect source code (opens in a new window)".

Definition screenshot_path : string := "verification/verification.png".

Definition failure_prefix : string := "❌ Test failed: ".

Definition success_lines : list string :=
  ["✅ Verified aria-busy is false"; "✅ Verified aria-label on link";
   "✅ Screenshot captured"].

(** ** Vocabulary of the properties *)

Definition is_goto (c : Call) : bool :=
  match c with Goto _ => true | _ => false end.

Definition is_expect (c : Call) : bool :=
  match c with ToHaveAttribute _ _ _ => true | _ => false end.

Definition is_screenshot (c : Call) : bool :=
  match c with Screenshot _ => true | _ => false end.

Definition is_close (c : Call) : bool :=
  match c with Close => true | _ => false end.

Definition is_stop (c : Call) : bool :=
  match c with StopPlaywright => true | _ => false end.

(** The calls [test_suggestions_panel] makes to the page. *)
Definition test_body_call (c : Call) : bool :=
  is_goto c || is_expect c || is_screenshot c.

(** The calls that release what was acquired. *)
Definition release_call (c : Call) : bool :=
  match c with Close | StopPlaywright => true | _ => false end.

(** The calls of a run that satisfy [P], in order. *)
Definition attempts (P : Call → bool) (evs : list Event) : list Call :=
  List.filter P (evs.*1).

(** The calls to Playwright of a run, prints left out. *)
Definition calls (evs : list Event) : list Call := (steps evs).*1.

(** The order in which the source text makes its calls. *)
Definition script_order (w : World) : list Call :=
  [SyncPlaywright; Launch true; NewPage; Goto (fixture_url w); busy_check;
   label_check; Screenshot screenshot_path; Close; StopPlaywright].

(** The element is missing, or its attribute is absent or has another
    value. *)
Definition unmet (doc : Document) (loc : Locator) (name value : string) : Prop :=
  doc loc = None ∨ ∃ el, doc loc = Some el ∧ el !! name ≠ Some value.

(** The calls made before the [try] statement is entered. *)
Definition before_try (c : Call) : bool :=
  match c with SyncPlaywright | Launch _ | NewPage => true | _ => false end.

(** The calls of the test body, its prints included. *)
Definition in_test_body (c : Call) : bool :=
  test_body_call c || bool_decide (c ∈ Print <$> success_lines).

(** The attribute is there with the expected value. *)
Definition met (doc : Document) (loc : Locator) (name value : string) : Prop :=
  ∃ el, doc loc = Some el ∧ el !! name = Some value.


(** ** Sample worlds *)

Definition container (busy : string) : attributes :=
  <["aria-busy" := busy]> {["id" := "solutionsContainer"]}.

Definition citation_link : attributes :=
  <["aria-label" := "Inspect source code (opens in a new window)"]>
    {["href" := "https://example.com/source"]}.

Definition page_with (box link : option attributes) : Document := λ loc,
  if decide (loc = locator "#solutionsContainer") then box
  else if decide (loc = get_by_role "link" "Inspect source code") then link
  else None.

(** A fixture page that carries both checked attributes. *)
Definition fixture : Document :=
  page_with (Some (container "false")) (Some citation_link).

(** The panel is still loading: [aria-busy="true"]. *)
Definition busy_fixture : Document :=
  page_with (Some (container "true")) (Some citation_link).

(** The link has no [aria-label]. *)
Definition unlabelled_fixture : Document :=
  page_with (Some (container "false"))
    (Some {["href" := "https://example.com/source"]}).


(** The text of a failed check names the attribute and what the page
    has there. *)
Definition received (doc : Document) (loc : Locator) (name : string) : string :=
  match doc loc with
  | Some el => default "None" (el !! name)
  | None => "no element"
  end.

Definition sample_message (doc : Document) (loc : Locator) (name value : string) : string :=
  "Locator expected to have attribute " +:+ name +:+ ", received: " +:+ received doc loc name.

(** A machine on which every call works, serving [doc] as the fixture. *)
Definition serving (doc : Document) : World := {|
  abspath := λ path, "/repo/" +:+ path;
  playwright_start := Returns;
  chromium_launch := λ _, Returns;
  browser_new_page := Returns;
  page_goto := λ url,
    if decide (url = "file:///repo/verification/index.html") then Loaded doc
    else NavigationFailed "Error" "net::ERR_FILE_NOT_FOUND";
  expect_message := sample_message;
  page_screenshot := λ _, Returns;
  browser_close := Returns;
  playwright_stop := Returns;
  console_print := λ _, Returns;
|}.

Definition healthy : World := serving fixture.

(** The same machine without a browser to launch. *)
Definition no_browser : World := {|
  abspath := abspath healthy;
  playwright_start := Returns;
  chromium_launch := λ _, Raises "Error" "Executable doesn't exist";
  browser_new_page := Returns;
  page_goto := page_goto healthy;
  expect_message := sample_message;
  page_screenshot := page_screenshot healthy;
  browser_close := Returns;
  playwright_stop := Returns;
  console_print := λ _, Returns;
|}.

(** The browser starts but refuses to open a page. *)
Definition no_page : World := {|
  abspath := abspath healthy;
  playwright_start := Returns;
  chromium_launch := λ _, Returns;
  browser_new_page := Raises "Error" "Target page, context or browser has been closed";
  page_goto := page_goto healthy;
  expect_message := sample_message;
  page_screenshot := page_screenshot healthy;
  browser_close := Returns;
  playwright_stop := Returns;
  console_print := λ _, Returns;
|}.


(** The fixture is right, the test passes, and the browser does not
    close. *)
Definition unclosable : World := {|
  abspath := abspath healthy;
  playwright_start := Returns;
  chromium_launch := λ _, Returns;
  browser_new_page := Returns;
  page_goto := page_goto healthy;
  expect_message := sample_message;
  page_screenshot := page_screenshot healthy;
  browser_close := Raises "Error" "Connection closed while closing the browser";
  playwright_stop := Returns;
  console_print := λ _, Returns;
|}.

(** The healthy machine with a console that cannot encode the marks of the
    script's lines: every [print] raises. *)
Definition ascii_console : World := {|
  abspath := abspath healthy;
  playwright_start := Returns;
  chromium_launch := λ _, Returns;
  browser_new_page := Returns;
  page_goto := page_goto healthy;
  expect_message := sample_message;
  page_screenshot := page_screenshot healthy;
  browser_close := Returns;
  playwright_stop := Returns;
  console_print := λ _, Raises "UnicodeEncodeError" "'ascii' codec can't encode character";
|}.


(** The panel is still busy and, on top of that, the browser does not close. *)
Definition stuck_browser : World := {|
  abspath := abspath healthy;
  playwright_start := Returns;
  chromium_launch := λ _, Returns;
  browser_new_page := Returns;
  page_goto := page_goto (serving busy_fixture);
  expect_message := sample_message;
  page_screenshot := page_screenshot healthy;
  browser_close := Raises "Error" "Connection closed while closing the browser";
  playwright_stop := Returns;
  console_print := λ _, Returns;
|}.

(** ** Case analysis of a run *)

Ltac unfold_script :=
  unfold run, main, with_, try_finally, try_except, test_suggestions_panel,
    sync_playwright, stop, launch, new_page, close, goto, to_have_attribute,
    screenshot, print, exit, call, record, raise, init,
    mbind, M_bind, bind, AssertionError.

(** The string constants of the script, named once so that the terms of the
    case analysis stay small. *)
Ltac name_strings :=
  set (s_label := "Inspect source code (opens in a new window)") in *;
  set (s_name := "Inspect source code") in *;
  set (s_png := "verification/verification.png") in *;
  set (s_html := "verification/index.html") in *;
  set (s_box := "#solutionsContainer") in *;
  set (s_assert := "AssertionError") in *;
  set (s_busy := "aria-busy") in *;
  set (s_aria := "aria-label") in *;
  set (s_file := "file://") in *.

Ltac forget_names :=
  repeat match goal with x := _ : string |- _ => subst x end.

Ltac step := cbv beta iota zeta delta [log dom app fst snd is_Exception str].

(** The case analyses follow the script through the answers of the world,
    in program order: the handler, the test body, the guarded block, the
    session. *)
Ltac handler_cases w :=
  destruct (console_print w (_ +:+ _)) eqn:Hfail; step.

Ltac body_cases w l1 l2 l3 :=
  let page := fresh "page" in
  destruct (page_goto w _) as [page | ? ?] eqn:Hgoto; step;
  [ destruct (has_attribute page (locator _) _ _) eqn:Hbusy; step;
    [ destruct (console_print w l1) eqn:Hprint1; step;
      [ destruct (has_attribute page (get_by_role _ _) _ _) eqn:Hlabel; step;
        [ destruct (console_print w l2) eqn:Hprint2; step;
          [ destruct (page_screenshot w _) eqn:Hshot; step;
            [ destruct (console_print w l3) eqn:Hprint3; step;
              [ | handler_cases w ]
            | handler_cases w ]
          | handler_cases w ]
        | handler_cases w ]
      | handler_cases w ]
    | handler_cases w ]
  | handler_cases w ].

Ltac guarded_cases w l1 l2 l3 :=
  body_cases w l1 l2 l3; destruct (browser_close w) eqn:Hclose; step.

Ltac session_cases w l1 l2 l3 :=
  destruct (chromium_launch w true) eqn:Hlaunch; step;
  [ destruct (browser_new_page w) eqn:Hpage; step; [ guarded_cases w l1 l2 l3 | ] | ].

(** One goal per path, with [run w] replaced by its events and ending. *)
Ltac run_cases w :=
  let evs := fresh "evs" in
  let r := fresh "r" in
  let Hrun := fresh "Hrun" in
  let l1 := fresh "l_busy" in
  let l2 := fresh "l_label" in
  let l3 := fresh "l_shot" in
  destruct (run w) as [evs r] eqn:Hrun; revert Hrun;
  unfold_script;
  set (l1 := "✅ Verified aria-busy is false") in *;
  set (l2 := "✅ Verified aria-label on link") in *;
  set (l3 := "✅ Screenshot captured") in *;
  name_strings; step;
  destruct (playwright_start w) eqn:Hstart; step;
  [ session_cases w l1 l2 l3; destruct (playwright_stop w) eqn:Hstop; step | ];
  intros [= <- <-].


Ltac elem_inv H :=
  repeat (apply elem_of_cons in H as [H | H];
          [ first [ discriminate H | injection H; clear H; intros; subst ] | ]);
  try (apply elem_of_nil in H; destruct H).

Ltac elem_here := apply (bool_decide_unpack _); vm_compute; exact I.

(** Finds an element in, or a subsequence of, an explicit list. *)
Ltac elem_find :=
  repeat first [ apply list_elem_of_here | apply list_elem_of_further ].

Ltac sublist_find :=
  repeat first [ apply sublist_nil | apply sublist_skip | apply sublist_cons ].

(** ** Exit codes *)

Lemma exit_code_run (w : World) :
  exit_code (ending (run w)) = if existsb raised (events (run w)) then 1%Z else 0%Z.
Proof. run_cases w; reflexivity. Qed.

Lemma existsb_raised (evs : list Event) :
  existsb raised evs = true ↔ Exists (λ ev, ∃ e, ev.2 = Raised e) evs.
Proof.
  rewrite existsb_exists, Exists_exists. split.
  - intros ([c [|e]] & Hin & Hr); [ discriminate | ].
    exists (c, Raised e). split; [ by apply list_elem_of_In | by exists e ].
  - intros ([c o] & Hin & e & He). simpl in He. subst o.
    exists (c, Raised e). split; [ by apply list_elem_of_In | done ].
Qed.

Lemma existsb_not_raised (evs : list Event) :
  Forall (λ ev, ev.2 = Returned) evs → existsb raised evs = false.
Proof.
  induction 1 as [ | [c o] evs Ho _ IH ]; [ done | ].
  simpl in *. subst o. done.
Qed.

(** C1, the claim as stated fails: navigation, both assertions and the
    screenshot return, the three success lines are printed, and the browser
    does not close; the exit code is 1. *)
Lemma listed_steps_return_close_raises :
  (Goto (fixture_url unclosable), Returned) ∈ events (run unclosable) ∧
  (busy_check, Returned) ∈ events (run unclosable) ∧
  (label_check, Returned) ∈ events (run unclosable) ∧
  (Screenshot screenshot_path, Returned) ∈ events (run unclosable) ∧
  stdout (events (run unclosable)) = success_lines ∧
  exit_code (ending (run unclosable)) = 1%Z.
Proof. split_and!; [ elem_here .. | by vm_compute | by vm_compute ]. Qed.

(** C1, as amended. The exit code of a run is 0 when every call it makes
    returns: navigation, both assertions and the screenshot, and also
    starting Playwright, launching the browser, opening the page, every
    [print], closing the browser and stopping Playwright; it is 1 as soon as
    any of these calls raises. *)
Theorem exit_code_success_or_failure (w : World) :
  (Forall (λ ev, ev.2 = Returned) (events (run w)) → exit_code (ending (run w)) = 0%Z) ∧
  (Exists (λ ev, ∃ e, ev.2 = Raised e) (events (run w)) → exit_code (ending (run w)) = 1%Z).
Proof.
  rewrite exit_code_run. split.
  - intros H. by rewrite (existsb_not_raised _ H).
  - intros H. apply existsb_raised in H. by rewrite H.
Qed.

(** C1, at work: the healthy machine exits with 0; the page whose panel is
    still busy, where the first assertion raises, with 1. *)
Lemma exit_code_success_or_failure_witness :
  (Forall (λ ev, ev.2 = Returned) (events (run healthy)) ∧
   exit_code (ending (run healthy)) = 0%Z) ∧
  (Exists (λ ev, ∃ e, ev.2 = Raised e) (events (run (serving busy_fixture))) ∧
   exit_code (ending (run (serving busy_fixture))) = 1%Z).
Proof.
  assert (H0 : Forall (λ ev, ev.2 = Returned) (events (run healthy)))
    by (apply (bool_decide_unpack _); vm_compute; exact I).
  assert (H1 : Exists (λ ev, ∃ e, ev.2 = Raised e) (events (run (serving busy_fixture))))
    by (do 4 apply Exists_cons_tl; apply Exists_cons_hd; by eexists).
  exact (conj (conj H0 (proj1 (exit_code_success_or_failure healthy) H0))
              (conj H1 (proj2 (exit_code_success_or_failure (serving busy_fixture)) H1))).
Defined.

(** ** The attribute check *)

Lemma has_attribute_true (doc : Document) (loc : Locator) (name value : string) :
  has_attribute doc loc name value = true ↔ met doc loc name value.
Proof.
  unfold has_attribute, met. destruct (doc loc) as [el | ]; split.
  - intros H. exists el. split; [ done | ]. by apply bool_decide_eq_true in H.
  - intros (el' & [= <-] & H). by apply bool_decide_eq_true.
  - discriminate.
  - by intros (el' & ? & _).
Qed.

Lemma has_attribute_false (doc : Document) (loc : Locator) (name value : string) :
  has_attribute doc loc name value = false ↔ unmet doc loc name value.
Proof.
  unfold has_attribute, unmet. destruct (doc loc) as [el | ]; split.
  - intros H. right. exists el. split; [ done | ]. by apply bool_decide_eq_false in H.
  - intros [ ? | (el' & [= <-] & H) ]; [ done | ]. by apply bool_decide_eq_false.
  - by left.
  - done.
Qed.

Lemma unmet_not_met (doc : Document) (loc : Locator) (name value : string) :
  unmet doc loc name value → has_attribute doc loc name value = true → False.
Proof. intros H%has_attribute_false. congruence. Qed.

Lemma met_not_unmet (doc : Document) (loc : Locator) (name value : string) :
  met doc loc name value → has_attribute doc loc name value = false → False.
Proof. intros H%has_attribute_true. congruence. Qed.

(** ** The catch-all handler *)

(** C2, as amended. Every failure raised by the test body (a failed
    navigation, a missing element, a wrong attribute value, a failed
    screenshot, a failed [print] of a success line) is caught by the
    handler: it tries to print one line, the failure prefix followed by the
    error, which is on the console, after the success lines printed before
    the failure, when that [print] returns; the exit code is 1 either way.  In particular
    a run that loads a fixture missing either checked attribute tries to
    print such a line and exits with 1.  A failure raised before the [try]
    block (starting Playwright, launching the browser, opening the page) is
    not caught: the run tries to print nothing and ends with an uncaught
    exception, exit code 1. *)
Theorem test_failures_reach_handler (w : World) :
  (∀ c e, in_test_body c = true → (c, Raised e) ∈ events (run w) →
     (∃ o, (Print (failure_prefix +:+ str e), o) ∈ events (run w) ∧
        ∃ n, stdout (events (run w)) =
               take n success_lines ++
               match o with Returned => [failure_prefix +:+ str e] | Raised _ => [] end) ∧
     exit_code (ending (run w)) = 1%Z) ∧
  (∀ doc, (Goto (fixture_url w), Returned) ∈ events (run w) →
     page_goto w (fixture_url w) = Loaded doc →
     unmet doc (locator "#solutionsContainer") "aria-busy" "false" ∨
     unmet doc (get_by_role "link" "Inspect source code") "aria-label"
       "Inspect source code (opens in a new window)" →
     (∃ msg o, (Print (failure_prefix +:+ msg), o) ∈ events (run w) ∧
        ∃ n, stdout (events (run w)) =
               take n success_lines ++
               match o with Returned => [failure_prefix +:+ msg] | Raised _ => [] end) ∧
     exit_code (ending (run w)) = 1%Z) ∧
  (∀ c e, before_try c = true → (c, Raised e) ∈ events (run w) →
     attempts is_print (events (run w)) = [] ∧
     (∃ e', ending (run w) = Raise e' ∧ is_Exception e' = true) ∧
     exit_code (ending (run w)) = 1%Z).
Proof.
  unfold fixture_url, failure_prefix, success_lines.
  run_cases w; cbn [events ending].
  all: split_and!;
    [ intros c e Hc Hin; elem_inv Hin;
      try (vm_compute in Hc; discriminate Hc);
      (split;
       [ eexists; split;
         [ solve [ elem_find ]
         | first [ by exists 0 | by exists 1 | by exists 2 | by exists 3 ] ]
       | reflexivity ])
    | intros doc Hin Hdoc Hunmet; elem_inv Hin; simplify_eq;
      try (destruct Hunmet as [Hu | Hu]; by destruct (unmet_not_met _ _ _ _ Hu));
      (split;
       [ eexists _, _; split;
         [ solve [ elem_find ]
         | first [ by exists 0 | by exists 1 | by exists 2 | by exists 3 ] ]
       | reflexivity ])
    | intros c e Hc Hin; elem_inv Hin; try discriminate Hc;
      (split_and!; [ reflexivity | by eexists | reflexivity ]) ].
Qed.

(** C2, the claim as stated fails: when the browser cannot be launched the
    failure is raised before the [try] block; the handler never runs, no
    line is printed and the exception leaves the script uncaught. *)
Lemma launch_failure_escapes_handler :
  events (run no_browser) =
    [(SyncPlaywright, Returned);
     (Launch true, Raised (Error "Executable doesn't exist"));
     (StopPlaywright, Returned)] ∧
  stdout (events (run no_browser)) = [] ∧
  ending (run no_browser) = Raise (Error "Executable doesn't exist").
Proof. by vm_compute. Qed.

(** C2, at work: the fixture whose panel is still busy. *)
Lemma test_failures_reach_handler_witness :
  in_test_body busy_check = true ∧
  (busy_check, Raised (AssertionError (sample_message busy_fixture
     (locator "#solutionsContainer") "aria-busy" "false")))
    ∈ events (run (serving busy_fixture)) ∧
  (∃ o, (Print (failure_prefix +:+ sample_message busy_fixture
           (locator "#solutionsContainer") "aria-busy" "false"), o)
          ∈ events (run (serving busy_fixture)) ∧
     ∃ n, stdout (events (run (serving busy_fixture))) =
            take n success_lines ++
            match o with
            | Returned => [failure_prefix +:+ sample_message busy_fixture
                             (locator "#solutionsContainer") "aria-busy" "false"]
            | Raised _ => []
            end) ∧
  exit_code (ending (run (serving busy_fixture))) = 1%Z.
Proof.
  assert (Hc : in_test_body busy_check = true) by reflexivity.
  assert (Hin : (busy_check, Raised (AssertionError (sample_message busy_fixture
                   (locator "#solutionsContainer") "aria-busy" "false")))
                  ∈ events (run (serving busy_fixture))) by elem_here.
  exact (conj Hc (conj Hin
    (proj1 (test_failures_reach_handler (serving busy_fixture)) _ _ Hc Hin))).
Defined.

(** ** The two assertions *)

(** C3, the claim as stated fails: on the page whose link has no
    [aria-label] the element [#solutionsContainer] is there with
    [aria-busy="false"], the first assertion returns, and the run fails all
    the same, through the handler and with exit code 1. *)
Lemma run_fails_with_aria_busy_met :
  met unlabelled_fixture (locator "#solutionsContainer") "aria-busy" "false" ∧
  (busy_check, Returned) ∈ events (run (serving unlabelled_fixture)) ∧
  ending (run (serving unlabelled_fixture)) = Raise (SystemExit 1) ∧
  exit_code (ending (run (serving unlabelled_fixture))) = 1%Z.
Proof.
  split_and!; [ | elem_here | by vm_compute | by vm_compute ].
  apply has_attribute_true. by vm_compute.
Qed.

(** C3, as amended. Once the fixture page is loaded, the first assertion the
    script makes is the check of [aria-busy="false"] on
    [#solutionsContainer]; that assertion raises exactly when the element is
    missing or its attribute differs and returns exactly when the element
    carries the value.  When it raises, the error goes to the handler: the
    failure line is the only line the run tries to print, and the exit code
    is 1.  (The run can fail at a later step as well.) *)
Theorem first_assertion_checks_aria_busy (w : World) (doc : Document) :
  (Goto (fixture_url w), Returned) ∈ events (run w) →
  page_goto w (fixture_url w) = Loaded doc →
  attempts is_expect (events (run w)) !! 0 = Some busy_check ∧
  ((∃ e, (busy_check, Raised e) ∈ events (run w)) ↔
     unmet doc (locator "#solutionsContainer") "aria-busy" "false") ∧
  ((busy_check, Returned) ∈ events (run w) ↔
     met doc (locator "#solutionsContainer") "aria-busy" "false") ∧
  (∀ e, (busy_check, Raised e) ∈ events (run w) →
     (∃ o, attempts is_print (events (run w)) = [Print (failure_prefix +:+ str e)] ∧
           (Print (failure_prefix +:+ str e), o) ∈ events (run w) ∧
           stdout (events (run w)) =
             match o with Returned => [failure_prefix +:+ str e] | Raised _ => [] end) ∧
     exit_code (ending (run w)) = 1%Z).
Proof.
  intros Hin Hdoc. unfold fixture_url, busy_check, failure_prefix in *.
  run_cases w; cbn [events ending] in *; elem_inv Hin; simplify_eq.
  all: split_and!;
    [ reflexivity
    | split;
      [ first [ solve [ intros [e He]; elem_inv He ]
              | intros _; by apply has_attribute_false ]
      | first [ solve [ intros Hu; by destruct (unmet_not_met _ _ _ _ Hu) ]
              | intros _; eexists; solve [ elem_find ] ] ]
    | split;
      [ first [ solve [ intros He; elem_inv He ]
              | intros _; by apply has_attribute_true ]
      | first [ solve [ intros Hm; by destruct (met_not_unmet _ _ _ _ Hm) ]
              | intros _; solve [ elem_find ] ] ]
    | solve [ intros e He; elem_inv He;
              (split; [ eexists; split_and!;
                        [ reflexivity | solve [ elem_find ] | reflexivity ]
                      | reflexivity ]) ] ].
Qed.

(** C3, at work: the page whose panel is still busy. *)
Lemma first_assertion_checks_aria_busy_witness :
  (Goto (fixture_url (serving busy_fixture)), Returned) ∈ events (run (serving busy_fixture)) ∧
  page_goto (serving busy_fixture) (fixture_url (serving busy_fixture)) = Loaded busy_fixture ∧
  attempts is_expect (events (run (serving busy_fixture))) !! 0 = Some busy_check ∧
  ((∃ e, (busy_check, Raised e) ∈ events (run (serving busy_fixture))) ↔
     unmet busy_fixture (locator "#solutionsContainer") "aria-busy" "false").
Proof.
  assert (Hin : (Goto (fixture_url (serving busy_fixture)), Returned)
                  ∈ events (run (serving busy_fixture))) by elem_here.
  assert (Hdoc : page_goto (serving busy_fixture) (fixture_url (serving busy_fixture))
                 = Loaded busy_fixture) by (vm_compute; reflexivity).
  pose proof (first_assertion_checks_aria_busy _ _ Hin Hdoc) as (H1 & H2 & _).
  exact (conj Hin (conj Hdoc (conj H1 H2))).
Defined.

(** C4. The second assertion the script makes is the check of the
    [aria-label] of the link named by its role and by the name "Inspect
    source code".  On a loaded page whose panel carries [aria-busy="false"],
    and once the line of the first assertion is printed, that check is made:
    it returns exactly when the link carries the expected label and raises
    exactly when the link is missing or its attribute differs.  Whenever
    the check is unmet on the loaded page the run fails, with exit
    code 1. *)
Theorem second_assertion_checks_aria_label (w : World) (doc : Document) :
  (Goto (fixture_url w), Returned) ∈ events (run w) →
  page_goto w (fixture_url w) = Loaded doc →
  (∀ c, attempts is_expect (events (run w)) !! 1 = Some c → c = label_check) ∧
  (met doc (locator "#solutionsContainer") "aria-busy" "false" →
   console_print w "✅ Verified aria-busy is false" = Returns →
     attempts is_expect (events (run w)) = [busy_check; label_check] ∧
     ((label_check, Returned) ∈ events (run w) ↔
        met doc (get_by_role "link" "Inspect source code") "aria-label"
          "Inspect source code (opens in a new window)") ∧
     ((∃ e, (label_check, Raised e) ∈ events (run w)) ↔
        unmet doc (get_by_role "link" "Inspect source code") "aria-label"
          "Inspect source code (opens in a new window)")) ∧
  ((label_check, Returned) ∈ events (run w) →
     met doc (get_by_role "link" "Inspect source code") "aria-label"
       "Inspect source code (opens in a new window)") ∧
  (unmet doc (get_by_role "link" "Inspect source code") "aria-label"
     "Inspect source code (opens in a new window)" →
     exit_code (ending (run w)) = 1%Z).
Proof.
  intros Hin Hdoc. unfold fixture_url, busy_check, label_check in *.
  run_cases w; cbn [events ending] in *; elem_inv Hin; simplify_eq.
  all: split_and!;
    [ solve [ intros c [= <-]; reflexivity | intros c [=] ]
    | intros Hpanel Hline; first
        [ solve [ by destruct (met_not_unmet _ _ _ _ Hpanel) ]
        | solve [ discriminate Hline ]
        | split_and!;
          [ reflexivity
          | split;
            [ first [ solve [ intros He; elem_inv He ]
                    | intros _; by apply has_attribute_true ]
            | first [ solve [ intros Hm; by destruct (met_not_unmet _ _ _ _ Hm) ]
                    | intros _; solve [ elem_find ] ] ]
          | split;
            [ first [ solve [ intros [e He]; elem_inv He ]
                    | intros _; by apply has_attribute_false ]
            | first [ solve [ intros Hu; by destruct (unmet_not_met _ _ _ _ Hu) ]
                    | intros _; eexists; solve [ elem_find ] ] ] ] ]
    | first [ solve [ intros He; elem_inv He ]
            | intros _; by apply has_attribute_true ]
    | first [ solve [ intros Hu; by destruct (unmet_not_met _ _ _ _ Hu) ]
            | intros _; reflexivity ] ].
Qed.

(** C4, at work: on the healthy machine the link carries its label and the
    second assertion is made and returns; on the page whose link has no
    [aria-label] it is unmet and the run exits with 1. *)
Lemma second_assertion_checks_aria_label_witness :
  (met fixture (locator "#solutionsContainer") "aria-busy" "false" ∧
   console_print healthy "✅ Verified aria-busy is false" = Returns ∧
   met fixture (get_by_role "link" "Inspect source code") "aria-label"
     "Inspect source code (opens in a new window)" ∧
   attempts is_expect (events (run healthy)) = [busy_check; label_check] ∧
   (label_check, Returned) ∈ events (run healthy)) ∧
  (unmet unlabelled_fixture (get_by_role "link" "Inspect source code") "aria-label"
     "Inspect source code (opens in a new window)" ∧
   exit_code (ending (run (serving unlabelled_fixture))) = 1%Z).
Proof.
  assert (Hin : (Goto (fixture_url healthy), Returned) ∈ events (run healthy))
    by elem_here.
  assert (Hdoc : page_goto healthy (fixture_url healthy) = Loaded fixture)
    by (vm_compute; reflexivity).
  assert (Hb : met fixture (locator "#solutionsContainer") "aria-busy" "false").
  { exists (container "false"). split; vm_compute; reflexivity. }
  assert (Hp : console_print healthy "✅ Verified aria-busy is false" = Returns)
    by reflexivity.
  assert (Hm : met fixture (get_by_role "link" "Inspect source code") "aria-label"
                 "Inspect source code (opens in a new window)").
  { exists citation_link. split; vm_compute; reflexivity. }
  assert (Hin' : (Goto (fixture_url (serving unlabelled_fixture)), Returned)
                   ∈ events (run (serving unlabelled_fixture))) by elem_here.
  assert (Hdoc' : page_goto (serving unlabelled_fixture)
                    (fixture_url (serving unlabelled_fixture))
                  = Loaded unlabelled_fixture) by (vm_compute; reflexivity).
  assert (Hu : unmet unlabelled_fixture (get_by_role "link" "Inspect source code")
                 "aria-label" "Inspect source code (opens in a new window)").
  { right. exists {["href" := "https://example.com/source"]}.
    split; [ vm_compute; reflexivity | vm_compute; discriminate ]. }
  pose proof (second_assertion_checks_aria_label healthy fixture Hin Hdoc)
    as (_ & H2 & _ & _).
  destruct (H2 Hb Hp) as (Hcalls & Hret & _).
  pose proof (second_assertion_checks_aria_label _ _ Hin' Hdoc') as (_ & _ & _ & H4).
  exact (conj (conj Hb (conj Hp (conj Hm (conj Hcalls (proj2 Hret Hm)))))
              (conj Hu (H4 Hu))).
Defined.

(** ** The correct fixture *)




(** ** Order of the steps *)

(** C6. The calls of every run follow the order of the script: they are a
    subsequence of it; a call other than the two releasing ones is made at
    its own position of the script, after every call before it has
    returned; and a run in which nothing raises makes all of them. *)
Theorem steps_follow_script_order (w : World) :
  calls (events (run w)) `sublist_of` script_order w ∧
  (∀ i c o, steps (events (run w)) !! i = Some (c, o) → release_call c = false →
     script_order w !! i = Some c ∧
     Forall (λ ev, ev.2 = Returned) (take i (steps (events (run w))))) ∧
  (Forall (λ ev, ev.2 = Returned) (events (run w)) →
     calls (events (run w)) = script_order w).
Proof.
  unfold script_order, fixture_url, busy_check, label_check, screenshot_path.
  run_cases w; cbn [events ending] in *.
  all: split_and!;
    [ cbn; sublist_find
    | intros i c o Hi Hr; cbn in Hi;
      do 13 (try (destruct i as [ | i ]; cbn in Hi;
                  [ simplify_eq; first [ discriminate Hr
                                       | split; [ reflexivity | cbn; repeat constructor ] ]
                  | ]));
      discriminate Hi
    | intros H; first [ reflexivity
                      | exfalso;
                        repeat (apply Forall_cons in H as [Hh H];
                                cbn in Hh; try discriminate Hh; clear Hh) ] ].
Qed.

(** C6, at work: on the page whose panel is still busy the fifth call is
    the first assertion, made after four calls that returned. *)
Lemma steps_follow_script_order_witness :
  steps (events (run (serving busy_fixture))) !! 4 =
    Some (busy_check, Raised (AssertionError (sample_message busy_fixture
      (locator "#solutionsContainer") "aria-busy" "false"))) ∧
  release_call busy_check = false ∧
  script_order (serving busy_fixture) !! 4 = Some busy_check ∧
  Forall (λ ev, ev.2 = Returned) (take 4 (steps (events (run (serving busy_fixture))))).
Proof.
  assert (Hi : steps (events (run (serving busy_fixture))) !! 4 =
    Some (busy_check, Raised (AssertionError (sample_message busy_fixture
      (locator "#solutionsContainer") "aria-busy" "false"))))
    by (vm_compute; reflexivity).
  assert (Hr : release_call busy_check = false) by reflexivity.
  exact (conj Hi (conj Hr
    (proj1 (proj2 (steps_follow_script_order (serving busy_fixture))) _ _ _ Hi Hr))).
Defined.

(** ** Navigation *)

(** C7. Whatever the run navigates to is the URL made of [file://] and the
    absolute path of [verification/index.html]; once the page is open the
    run navigates there, once. *)
Theorem navigation_targets_fixture_file (w : World) :
  (∀ url o, (Goto url, o) ∈ events (run w) →
     url = "file://" +:+ abspath w "verification/index.html") ∧
  ((NewPage, Returned) ∈ events (run w) →
     attempts is_goto (events (run w)) = [Goto (fixture_url w)]).
Proof.
  unfold fixture_url. split.
  - intros url o Hin. run_cases w; cbn [events] in *; elem_inv Hin; reflexivity.
  - intros Hin. run_cases w; cbn [events] in *; elem_inv Hin; reflexivity.
Qed.

(** C7, at work: the healthy machine. *)
Lemma navigation_targets_fixture_file_witness :
  (NewPage, Returned) ∈ events (run healthy) ∧
  attempts is_goto (events (run healthy)) = [Goto "file:///repo/verification/index.html"].
Proof.
  assert (Hin : (NewPage, Returned) ∈ events (run healthy)) by elem_here.
  exact (conj Hin (proj2 (navigation_targets_fixture_file healthy) Hin)).
Defined.

(** ** No retry *)

(** C8. No call is made twice: the run navigates at most once, makes at most
    the two assertions, each once and in their order, and takes at most one
    screenshot; and once a call has raised, no further call of the test
    body is made. *)
Theorem no_step_is_retried (w : World) :
  NoDup (calls (events (run w))) ∧
  attempts is_goto (events (run w)) `sublist_of` [Goto (fixture_url w)] ∧
  attempts is_expect (events (run w)) `sublist_of` [busy_check; label_check] ∧
  attempts is_screenshot (events (run w)) `sublist_of` [Screenshot screenshot_path] ∧
  (∀ i c e, events (run w) !! i = Some (c, Raised e) →
     Forall (λ ev, test_body_call ev.1 = false) (drop (S i) (events (run w)))).
Proof.
  unfold fixture_url, busy_check, label_check, screenshot_path.
  run_cases w; cbn [events ending] in *.
  all: split_and!;
    [ cbn; repeat (apply NoDup_cons; split; [ intros Hin; elem_inv Hin | ]); apply NoDup_nil_2
    | cbn; sublist_find
    | cbn; sublist_find
    | cbn; sublist_find
    | intros i c e Hi;
      do 13 (try (destruct i as [ | i ]; cbn in Hi;
                  [ simplify_eq; cbn; repeat constructor | ]));
      discriminate Hi ].
Qed.

(** C8, at work: on the page whose panel is still busy the fifth event is
    the failed assertion; what follows is the failure line and the two
    releases. *)
Lemma no_step_is_retried_witness :
  events (run (serving busy_fixture)) !! 4 =
    Some (busy_check, Raised (AssertionError (sample_message busy_fixture
      (locator "#solutionsContainer") "aria-busy" "false"))) ∧
  Forall (λ ev, test_body_call ev.1 = false)
    (drop 5 (events (run (serving busy_fixture)))).
Proof.
  assert (Hi : events (run (serving busy_fixture)) !! 4 =
    Some (busy_check, Raised (AssertionError (sample_message busy_fixture
      (locator "#solutionsContainer") "aria-busy" "false"))))
    by (vm_compute; reflexivity).
  pose proof (no_step_is_retried (serving busy_fixture)) as (_ & _ & _ & _ & H).
  exact (conj Hi (H _ _ _ Hi)).
Defined.

(** ** Release of the browser *)

(** C9, the claim as stated fails: when the browser is launched but the page
    cannot be opened, the exception is raised before the [try] block is
    entered and [browser.close()] is never called. *)
Lemma close_skipped_when_page_fails :
  events (run no_page) =
    [(SyncPlaywright, Returned); (Launch true, Returned);
     (NewPage, Raised (Error "Target page, context or browser has been closed"));
     (StopPlaywright, Returned)] ∧
  attempts is_close (events (run no_page)) = [].
Proof. by vm_compute. Qed.

(** C9, as amended. [browser.close()] is called, once, in every run that
    has opened the page, however the test body ends; it is called in no
    other run. *)
Theorem close_runs_once_page_is_open (w : World) :
  ((NewPage, Returned) ∈ events (run w) → attempts is_close (events (run w)) = [Close]) ∧
  (∀ o, (Close, o) ∈ events (run w) → (NewPage, Returned) ∈ events (run w)).
Proof.
  split.
  - intros Hin. run_cases w; cbn [events] in *; elem_inv Hin; reflexivity.
  - intros o Hin. run_cases w; cbn [events] in *; elem_inv Hin; elem_find.
Qed.

(** C9, at work: the test body succeeds on the healthy machine and raises on
    the page whose panel is still busy; the browser is closed in both. *)
Lemma close_runs_once_page_is_open_witness :
  ((NewPage, Returned) ∈ events (run healthy) ∧
   ending (run healthy) = Ret tt ∧
   attempts is_close (events (run healthy)) = [Close]) ∧
  ((NewPage, Returned) ∈ events (run (serving busy_fixture)) ∧
   ending (run (serving busy_fixture)) = Raise (SystemExit 1) ∧
   attempts is_close (events (run (serving busy_fixture))) = [Close]).
Proof.
  assert (H1 : (NewPage, Returned) ∈ events (run healthy)) by elem_here.
  assert (H2 : (NewPage, Returned) ∈ events (run (serving busy_fixture))) by elem_here.
  exact (conj
    (conj H1 (conj eq_refl (proj1 (close_runs_once_page_is_open healthy) H1)))
    (conj H2 (conj eq_refl
       (proj1 (close_runs_once_page_is_open (serving busy_fixture)) H2)))).
Defined.

(** ** A failed assertion *)

(** C10. When either assertion raises, no screenshot is attempted and no
    file is written; of the success lines the console shows the one of the
    first assertion if it is the second that failed, and none otherwise.
    The only other line is the failure line, there when its [print]
    returns. *)
Theorem failed_assertion_skips_screenshot (w : World) (c : Call) (e : exn) :
  c = busy_check ∨ c = label_check →
  (c, Raised e) ∈ events (run w) →
  attempts is_screenshot (events (run w)) = [] ∧
  files_written (events (run w)) = [] ∧
  ∃ o, (Print (failure_prefix +:+ str e), o) ∈ events (run w) ∧
    stdout (events (run w)) =
      (if decide (c = busy_check) then [] else ["✅ Verified aria-busy is false"])
      ++ match o with Returned => [failure_prefix +:+ str e] | Raised _ => [] end.
Proof.
  intros Hc Hin. unfold busy_check, label_check, failure_prefix in *.
  run_cases w; cbn [events] in *; elem_inv Hin;
    destruct Hc as [Hc | Hc]; try discriminate Hc;
    (split_and!; [ reflexivity | reflexivity | ];
     eexists; split; [ solve [ elem_find ] | reflexivity ]).
Qed.

(** C10, at work: the page whose link has no [aria-label]. *)
Lemma failed_assertion_skips_screenshot_witness :
  (label_check, Raised (AssertionError (sample_message unlabelled_fixture
     (get_by_role "link" "Inspect source code") "aria-label"
     "Inspect source code (opens in a new window)")))
    ∈ events (run (serving unlabelled_fixture)) ∧
  attempts is_screenshot (events (run (serving unlabelled_fixture))) = [] ∧
  files_written (events (run (serving unlabelled_fixture))) = [] ∧
  stdout (events (run (serving unlabelled_fixture))) =
    ["✅ Verified aria-busy is false";
     "❌ Test failed: Locator expected to have attribute aria-label, received: None"].
Proof.
  assert (Hin : (label_check, Raised (AssertionError (sample_message unlabelled_fixture
                   (get_by_role "link" "Inspect source code") "aria-label"
                   "Inspect source code (opens in a new window)")))
                  ∈ events (run (serving unlabelled_fixture))) by elem_here.
  pose proof (failed_assertion_skips_screenshot (serving unlabelled_fixture) _ _
                (or_intror eq_refl) Hin) as (H1 & H2 & _).
  exact (conj Hin (conj H1 (conj H2 eq_refl))).
Defined.

(** * Further properties of the script *)

(** ** The [with] block *)

(** X1. Playwright is stopped, once and as the last call of the run, in
    every run in which it was started, also when launching the browser or
    opening the page fails; when it cannot be started the run makes no
    other call and ends with that error. *)
Theorem playwright_stops_once_started (w : World) :
  ((SyncPlaywright, Returned) ∈ events (run w) →
     attempts is_stop (events (run w)) = [StopPlaywright] ∧
     ∃ o, last (events (run w)) = Some (StopPlaywright, o)) ∧
  (∀ cls msg, playwright_start w = Raises cls msg →
     events (run w) = [(SyncPlaywright, Raised (Exception cls msg))] ∧
     ending (run w) = Raise (Exception cls msg)).
Proof.
  run_cases w; cbn [events ending]; split.
  all: first [ solve [ intros Hin; elem_inv Hin ]
             | solve [ intros Hin; split; [ reflexivity | eexists; reflexivity ] ]
             | solve [ intros cls' msg' [=] ]
             | solve [ intros cls' msg' [= <- <-]; by split ] ].
Qed.

(** X1, at work: the machine without a browser. *)
Lemma playwright_stops_once_started_witness :
  (SyncPlaywright, Returned) ∈ events (run no_browser) ∧
  attempts is_stop (events (run no_browser)) = [StopPlaywright] ∧
  ∃ o, last (events (run no_browser)) = Some (StopPlaywright, o).
Proof.
  assert (Hin : (SyncPlaywright, Returned) ∈ events (run no_browser)) by elem_here.
  exact (conj Hin (proj1 (playwright_stops_once_started no_browser) Hin)).
Defined.

(** X8. An error of the release takes precedence: when stopping Playwright
    raises, the run ends with that error; when closing the browser raises
    and stopping works, the run ends with the closing error, also if the
    handler had already asked for [exit(1)]. *)
Theorem cleanup_errors_take_precedence (w : World) (cls msg : string) :
  ((SyncPlaywright, Returned) ∈ events (run w) →
     playwright_stop w = Raises cls msg →
     ending (run w) = Raise (Exception cls msg)) ∧
  ((NewPage, Returned) ∈ events (run w) →
     browser_close w = Raises cls msg → playwright_stop w = Returns →
     ending (run w) = Raise (Exception cls msg)).
Proof.
  run_cases w; cbn [events ending]; split.
  all: first [ solve [ intros Hin; elem_inv Hin ]
             | solve [ intros _ [=] ]
             | solve [ intros _ [= <- <-]; reflexivity ]
             | solve [ intros _ _ [=] ]
             | solve [ intros _ [=] _ ]
             | solve [ intros _ [= <- <-] _; reflexivity ] ].
Qed.

(** X8, at work: the failed test whose browser does not close; the failure
    line is on the console and the run ends with the closing error. *)
Lemma cleanup_errors_take_precedence_witness :
  (NewPage, Returned) ∈ events (run stuck_browser) ∧
  stdout (events (run stuck_browser)) =
    ["❌ Test failed: Locator expected to have attribute aria-busy, received: true"] ∧
  ending (run stuck_browser) =
    Raise (Error "Connection closed while closing the browser").
Proof.
  assert (Hin : (NewPage, Returned) ∈ events (run stuck_browser)) by elem_here.
  exact (conj Hin (conj eq_refl
    (proj2 (cleanup_errors_take_precedence stuck_browser _ _) Hin eq_refl eq_refl))).
Defined.

(** ** A passing run *)

(** X2. The verdict is sound: a run that exits with 0 has loaded the
    fixture page, found both checked attributes with their expected values
    on it, written the screenshot and printed the three success lines, and
    none of its calls raised. *)
Theorem exit_zero_means_verified (w : World) :
  exit_code (ending (run w)) = 0%Z →
  ∃ doc, page_goto w (fixture_url w) = Loaded doc ∧
    (∃ el, doc (locator "#solutionsContainer") = Some el ∧
           el !! "aria-busy" = Some "false") ∧
    (∃ el, doc (get_by_role "link" "Inspect source code") = Some el ∧
           el !! "aria-label" = Some "Inspect source code (opens in a new window)") ∧
    files_written (events (run w)) = [screenshot_path] ∧
    stdout (events (run w)) = success_lines ∧
    Forall (λ ev, ev.2 = Returned) (events (run w)).
Proof.
  intros Hexit. unfold fixture_url, screenshot_path, success_lines.
  run_cases w; cbn [events ending] in *; try discriminate Hexit.
  eexists. split_and!;
    [ reflexivity | by apply has_attribute_true | by apply has_attribute_true
    | reflexivity | reflexivity | repeat constructor ].
Qed.

(** X2, at work: the healthy machine. *)
Lemma exit_zero_means_verified_witness :
  exit_code (ending (run healthy)) = 0%Z ∧
  ∃ doc, page_goto healthy (fixture_url healthy) = Loaded doc ∧
    (∃ el, doc (locator "#solutionsContainer") = Some el ∧
           el !! "aria-busy" = Some "false") ∧
    (∃ el, doc (get_by_role "link" "Inspect source code") = Some el ∧
           el !! "aria-label" = Some "Inspect source code (opens in a new window)") ∧
    files_written (events (run healthy)) = [screenshot_path] ∧
    stdout (events (run healthy)) = success_lines ∧
    Forall (λ ev, ev.2 = Returned) (events (run healthy)).
Proof.
  assert (H : exit_code (ending (run healthy)) = 0%Z) by reflexivity.
  exact (conj H (exit_zero_means_verified healthy H)).
Defined.

(** ** What the console says *)

(** X3. The success lines tell the truth: the line about [aria-busy] is
    printed only if the loaded page carries [aria-busy="false"] on
    [#solutionsContainer], the line about [aria-label] only if its link
    carries the expected label. *)
Theorem success_lines_are_truthful (w : World) :
  ("✅ Verified aria-busy is false" ∈ stdout (events (run w)) →
     ∃ doc el, page_goto w (fixture_url w) = Loaded doc ∧
       doc (locator "#solutionsContainer") = Some el ∧
       el !! "aria-busy" = Some "false") ∧
  ("✅ Verified aria-label on link" ∈ stdout (events (run w)) →
     ∃ doc el, page_goto w (fixture_url w) = Loaded doc ∧
       doc (get_by_role "link" "Inspect source code") = Some el ∧
       el !! "aria-label" = Some "Inspect source code (opens in a new window)").
Proof.
  unfold fixture_url.
  run_cases w; cbn [events]; split; intros Hin; cbn in Hin; forget_names; elem_inv Hin.
  all: first
    [ apply has_attribute_true in Hbusy as (el & ? & ?); by eexists _, el
    | apply has_attribute_true in Hlabel as (el & ? & ?); by eexists _, el ].
Qed.

(** X3, at work: the page whose link has no [aria-label] still gets its
    first line, and carries that attribute. *)
Lemma success_lines_are_truthful_witness :
  "✅ Verified aria-busy is false" ∈ stdout (events (run (serving unlabelled_fixture))) ∧
  ∃ doc el, page_goto (serving unlabelled_fixture) (fixture_url (serving unlabelled_fixture))
              = Loaded doc ∧
    doc (locator "#solutionsContainer") = Some el ∧
    el !! "aria-busy" = Some "false".
Proof.
  assert (Hin : "✅ Verified aria-busy is false"
                  ∈ stdout (events (run (serving unlabelled_fixture)))) by elem_here.
  exact (conj Hin (proj1 (success_lines_are_truthful (serving unlabelled_fixture)) Hin)).
Defined.

(** X4. A run writes no file or the one screenshot at
    [verification/verification.png].  The line about the screenshot is
    truthful: it is on the console only if that file was written; and it is
    there whenever the file was written and the console takes the line. *)
Theorem screenshot_report_is_truthful (w : World) :
  (files_written (events (run w)) = [] ∨
   files_written (events (run w)) = [screenshot_path]) ∧
  ("✅ Screenshot captured" ∈ stdout (events (run w)) →
     (Screenshot screenshot_path, Returned) ∈ events (run w) ∧
     files_written (events (run w)) = [screenshot_path]) ∧
  ((Screenshot screenshot_path, Returned) ∈ events (run w) →
     console_print w "✅ Screenshot captured" = Returns →
     "✅ Screenshot captured" ∈ stdout (events (run w))).
Proof.
  unfold screenshot_path.
  run_cases w; cbn [events]; split_and!.
  all: first
    [ solve [ by left | by right ]
    | solve [ intros Hin; cbn in Hin; forget_names; elem_inv Hin ]
    | solve [ intros Hin; split; [ solve [ elem_find ] | reflexivity ] ]
    | solve [ intros Hin; elem_inv Hin ]
    | solve [ intros _ [=] ]
    | solve [ intros _ _; cbn; elem_find ] ].
Qed.

(** X4, at work: the healthy machine reports its screenshot; the machine
    whose console takes no line writes it and cannot report it. *)
Lemma screenshot_report_is_truthful_witness :
  ((Screenshot screenshot_path, Returned) ∈ events (run healthy) ∧
   console_print healthy "✅ Screenshot captured" = Returns ∧
   "✅ Screenshot captured" ∈ stdout (events (run healthy))) ∧
  stdout (events (run ascii_console)) = [].
Proof.
  assert (Hin : (Screenshot screenshot_path, Returned) ∈ events (run healthy))
    by elem_here.
  exact (conj (conj Hin (conj eq_refl
    (proj2 (proj2 (screenshot_report_is_truthful healthy)) Hin eq_refl))) eq_refl).
Defined.

(** X5. The console of a run shows the first [n] success lines, in order,
    followed by at most one failure line.  A failure line is the failure
    prefix and the text of the error that a call of the test body raised,
    and at most two success lines come before it.  A run that did not open
    the page prints nothing, and tries to print nothing. *)
Theorem console_shape (w : World) :
  ((NewPage, Returned) ∉ events (run w) →
     attempts is_print (events (run w)) = []) ∧
  ∃ n, n ≤ 3 ∧
    (stdout (events (run w)) = take n success_lines ∨
     n ≤ 2 ∧
     ∃ c e, in_test_body c = true ∧ (c, Raised e) ∈ events (run w) ∧
       stdout (events (run w)) = take n success_lines ++ [failure_prefix +:+ str e]).
Proof.
  unfold success_lines, failure_prefix.
  run_cases w; cbn [events]; split.
  all: first
    [ solve [ intros _; reflexivity ]
    | solve [ intros Hn; destruct Hn; elem_find ]
    | solve [ exists 0; split; [ lia | by left ] ]
    | solve [ exists 1; split; [ lia | by left ] ]
    | solve [ exists 2; split; [ lia | by left ] ]
    | solve [ exists 3; split; [ lia | by left ] ]
    | solve [ exists 0; split; [ lia | ]; right; split; [ lia | ];
              eexists _, _; split_and!; [ | elem_find | reflexivity ]; reflexivity ]
    | solve [ exists 1; split; [ lia | ]; right; split; [ lia | ];
              eexists _, _; split_and!; [ | elem_find | reflexivity ]; reflexivity ]
    | solve [ exists 2; split; [ lia | ]; right; split; [ lia | ];
              eexists _, _; split_and!; [ | elem_find | reflexivity ]; reflexivity ] ].
Qed.

(** X5, at work: the machine without a browser never opens a page. *)
Lemma console_shape_witness :
  ((NewPage, Returned) ∉ events (run no_browser)) ∧
  attempts is_print (events (run no_browser)) = [].
Proof.
  assert (Hn : (NewPage, Returned) ∉ events (run no_browser)).
  { intros Hin. vm_compute in Hin. elem_inv Hin. }
  exact (conj Hn (proj1 (console_shape no_browser) Hn)).
Defined.

(** X6. A run ends in one of three ways.  Normally, and then every call it
    made returned.  By the [exit(1)] of the handler, and then a call of the
    test body raised, the failure line was printed, and closing the browser
    and stopping Playwright returned.  Or with an uncaught exception, and
    then that exception was raised by a call outside the test body:
    starting Playwright, launching the browser, opening the page, the
    [print] of the handler, closing the browser or stopping Playwright. *)
Theorem how_a_run_ends (w : World) :
  match ending (run w) with
  | Ret _ => Forall (λ ev, ev.2 = Returned) (events (run w))
  | Raise (SystemExit code) =>
      code = 1%Z ∧
      browser_close w = Returns ∧ playwright_stop w = Returns ∧
      ∃ c e, in_test_body c = true ∧ (c, Raised e) ∈ events (run w) ∧
        (Print (failure_prefix +:+ str e), Returned) ∈ events (run w)
  | Raise (Exception cls msg) =>
      ∃ c, in_test_body c = false ∧ (c, Raised (Exception cls msg)) ∈ events (run w)
  end.
Proof.
  unfold failure_prefix.
  run_cases w; cbn [events ending].
  all: first
    [ solve [ repeat constructor ]
    | solve [ split_and!; [ reflexivity .. | ];
              eexists _, _; split_and!; [ | elem_find | elem_find ]; reflexivity ]
    | solve [ eexists; split; [ | elem_find ]; reflexivity ] ].
Qed.

(** X6, at work: on the console that takes no line, the [print] of the
    handler raises in its turn and that error leaves the script. *)
Lemma how_a_run_ends_witness :
  ending (run ascii_console) =
    Raise (Exception "UnicodeEncodeError" "'ascii' codec can't encode character") ∧
  ∃ c, in_test_body c = false ∧
    (c, Raised (Exception "UnicodeEncodeError" "'ascii' codec can't encode character"))
      ∈ events (run ascii_console).
Proof. exact (conj eq_refl (how_a_run_ends ascii_console)). Defined.



